(** * Verification of the Kornia / Lightning augmentation example

    Source: [lightning_examples/augmentation_kornia/augmentation.py].

    The script is glue between numerical libraries.  The embedding keeps the
    control flow and the data flow of the three classes it defines
    ([DataAugmentation], [Preprocess], [CoolSystem]) and takes the library
    operators they call (the pretrained network, the Kornia operators, the
    accuracy metric, the random generator, the dataset files) as the fields of
    one interface, [Libraries].  The library code that decides a property is
    written out: [kornia.image_to_tensor] and the [uint8 -> float32 -> / 255.0]
    conversion of [Preprocess] in exact binary32 arithmetic, softmax and
    cross-entropy over the reals, the samplers and the collation of
    [DataLoader], the closed form of the cosine learning-rate schedule.
    [show_batch] is modelled up to the two batches it draws.  Gradient
    tracking ([torch.no_grad]), device placement, plotting and the metrics
    report at the end of the script are not modelled. *)

From Stdlib Require Import String.
From Stdlib Require Import ZArith List Lia Bool QArith Reals Lra.
From Stdlib Require Import SpecFloat.
Import ListNotations.

Local Open Scope Z_scope.

(** ** binary32, the element type of [torch.float32] tensors *)
Module Float32.

Definition prec : Z := 24.
Definition emax : Z := 128.

Definition float32 : Type := spec_float.

(** An integer converted to binary32 (round to nearest even). *)
Definition of_Z (n : Z) : float32 := binary_normalize prec emax n 0 false.

Definition div (a b : float32) : float32 := SFdiv prec emax a b.

Definition leb (a b : float32) : bool := SFleb a b.

Definition zero : float32 := S754_zero false.
Definition one : float32 := of_Z 1.

(** The closed interval [0, 1]; false on NaN. *)
Definition in_unit_interval (f : float32) : bool := leb zero f && leb f one.

End Float32.

(** ** Arrays and tensors

    A [numpy.ndarray] and a [torch.Tensor] are a shape and the elements in
    row-major order. *)
Record Tensor (A : Type) : Type := mkTensor {
  shape : list nat;
  data : list A
}.
Arguments mkTensor {A} _ _.
Arguments shape {A} _.
Arguments data {A} _.

Definition numel (s : list nat) : nat := fold_right Nat.mul 1%nat s.

(** A tensor is well formed when it holds as many elements as its shape says. *)
Definition well_shaped {A : Type} (t : Tensor A) : Prop :=
  length (data t) = numel (shape t).

Definition tensor_map {A B : Type} (f : A -> B) (t : Tensor A) : Tensor B :=
  mkTensor (shape t) (map f (data t)).

(** [Tensor.unsqueeze(0)] *)
Definition unsqueeze0 {A : Type} (t : Tensor A) : Tensor A :=
  mkTensor (1%nat :: shape t) (data t).

(** ** The sample handed to [Preprocess]

    [CIFAR10.__getitem__] hands the transform a [PIL.Image]: a raster of
    [im_height] rows, [im_width] columns and [im_bands] interleaved 8-bit
    bands. *)
Record PILImage : Type := mkImage {
  im_height : nat;
  im_width : nat;
  im_bands : nat;
  im_bytes : list Z
}.

Definition is_uint8 (v : Z) : Prop := 0 <= v < 256.

(** The raw image can be coerced to a 3-channel numeric array. *)
Definition rgb_image (x : PILImage) : Prop :=
  im_bands x = 3%nat /\
  length (im_bytes x) = (im_height x * im_width x * 3)%nat /\
  Forall is_uint8 (im_bytes x).

(** [np.array(x)]: HxW for a single band, HxWxC otherwise. *)
Definition np_array (x : PILImage) : Tensor Z :=
  match im_bands x with
  | 1%nat => mkTensor [im_height x; im_width x] (im_bytes x)
  | c => mkTensor [im_height x; im_width x; c] (im_bytes x)
  end.

(** ** [kornia.image_to_tensor] *)

(** Element [(c, h, w)] of the result is element [(h, w, c)] of the input. *)
Definition hwc_to_chw (H W C : nat) (d : list Z) : list Z :=
  flat_map (fun c =>
    flat_map (fun h =>
      map (fun w => nth ((h * W + w) * C + c) d 0) (seq 0 W))
      (seq 0 H))
    (seq 0 C).

(** [(B, H, W, C) -> (B, C, H, W)] *)
Definition bhwc_to_bchw (B H W C : nat) (d : list Z) : list Z :=
  flat_map (fun b => hwc_to_chw H W C (firstn (H * W * C) (skipn (b * (H * W * C)) d)))
    (seq 0 B).

(** [None] stands for the [ValueError] raised on an array that has fewer
    than two or more than four dimensions. *)
Definition image_to_tensor (image : Tensor Z) (keepdim : bool) : option (Tensor Z) :=
  match shape image with
  | [H; W] =>
      let t := mkTensor [1%nat; H; W] (data image) in
      Some (if keepdim then t else unsqueeze0 t)
  | [H; W; C] =>
      let t := mkTensor [C; H; W] (hwc_to_chw H W C (data image)) in
      Some (if keepdim then t else unsqueeze0 t)
  | [B; H; W; C] =>
      Some (mkTensor [B; C; H; W] (bhwc_to_bchw B H W C (data image)))
  | _ => None
  end.

(** ** [Preprocess] *)
Module Preprocess.

(** [x_out.float() / 255.0] on one element. *)
Definition scale (v : Z) : Float32.float32 :=
  Float32.div (Float32.of_Z v) (Float32.of_Z 255).

Definition forward (x : PILImage) : option (Tensor Float32.float32) :=
  let x_tmp := np_array x in
  match image_to_tensor x_tmp true with
  | Some x_out => Some (tensor_map scale x_out)
  | None => None
  end.

End Preprocess.

(** ** Scalars, exceptions and the library interface *)

(** A zero-dimensional tensor: a real number, or the NaN that the mean of no
    element at all yields. *)
Inductive Scalar : Type :=
  | Real (r : R)
  | NaN.

Inductive Exception : Type :=
  | ValueError
  | IndexError
  | RuntimeError.

Inductive Result (A : Type) : Type :=
  | Ok (a : A)
  | Raise (e : Exception).
Arguments Ok {A} _.
Arguments Raise {A} _.

Definition ImgTensor : Type := Tensor Float32.float32.

(** The (N x classes) matrix a classifier returns; scores are idealised as
    real numbers: the NaN, the infinities, the underflow and the rounding of
    binary32 are outside the model, so it carries the data flow of the steps
    and no property of the numeric value of a score or of a loss is drawn
    from it. *)
Definition Logits : Type := list (list R).

Definition Labels : Type := list Z.

(** The Kornia operators the script instantiates, with the arguments it
    passes them. *)
Inductive Augmentation : Type :=
  | RandomHorizontalFlip (p : Q)
  | RandomChannelShuffle (p : Q)
  | RandomThinPlateSpline (p : Q)
  | ColorJitter (brightness contrast saturation hue : Q).

(** What the script calls and does not define. *)
Class Libraries : Type := {
  (** the state of the global random generator *)
  RNG : Type;
  (** [model.parameters()] and the buffers (running statistics) of the network *)
  Params : Type;
  Buffers : Type;
  (** the accumulator of [torchmetrics.Accuracy] *)
  Metric : Type;
  (** calling a Kornia operator on a batch draws from the generator *)
  augmentation_forward : Augmentation -> ImgTensor -> RNG -> Result ImgTensor * RNG;
  (** the forward pass of [torchvision.models.resnet18] reads the parameters
      and may refresh the buffers *)
  resnet18_forward : Params -> Buffers -> ImgTensor -> Result Logits * Buffers;
  (** [Accuracy.__call__]: the accuracy of the batch, and the updated accumulator *)
  Accuracy_forward : Metric -> Logits -> Labels -> Result Scalar * Metric;
  (** [torch.randperm], drawn by a shuffling sampler *)
  randperm : nat -> RNG -> list nat * RNG;
  (** [os.getcwd()] *)
  getcwd : string;
  (** the images and labels of a split of CIFAR10: [true] for the training
      split, [false] for the test split *)
  cifar10_split : bool -> list (PILImage * Z)
}.

(** ** [torch.nn.functional] *)
Module F.

Definition sum_exp (row : list R) : R :=
  fold_right (fun v acc => (exp v + acc)%R) 0%R row.

Definition softmax_row (row : list R) : list R :=
  map (fun v => (exp v / sum_exp row)%R) row.

(** [F.softmax(input)] without [dim] normalises a two-dimensional input
    along dimension 1. *)
Definition softmax (input : Logits) : Logits := map softmax_row input.

Definition log_softmax_at (row : list R) (k : nat) : R :=
  (nth k row 0 - ln (sum_exp row))%R.

Definition ignore_index : Z := -100.

(** The sum of the negative log-likelihoods of the targets that are not
    ignored, and how many they are. *)
Fixpoint nll_sum (input : Logits) (target : Labels) : Result (R * nat) :=
  match input, target with
  | [], [] => Ok (0%R, 0%nat)
  | row :: input', t :: target' =>
      if t =? ignore_index then nll_sum input' target'
      else if (0 <=? t) && (t <? Z.of_nat (length row)) then
        match nll_sum input' target' with
        | Ok (s, n) => Ok ((s - log_softmax_at row (Z.to_nat t))%R, S n)
        | Raise e => Raise e
        end
      else Raise IndexError
  | _, _ => Raise ValueError
  end.

(** [F.cross_entropy(input, target)], reduction ['mean']: the batch sizes
    must agree, a target outside the classes is an error, and the sum is
    divided by the number of targets counted.  The exceptions are those of
    the CPU kernels; on a CUDA device a target outside the classes is a
    device-side assertion instead. *)
Definition cross_entropy (input : Logits) (target : Labels) : Result Scalar :=
  if (length input =? length target)%nat then
    match nll_sum input target with
    | Ok (s, S n) => Ok (Real (s / INR (S n)))
    | Ok (_, O) => Ok NaN
    | Raise e => Raise e
    end
  else Raise ValueError.

End F.

(** ** [nn.Module] calls: state and exceptions *)

(** A computation over a state [S] that returns or raises; the state it
    reached is kept in both cases. *)
Definition M (S A : Type) : Type := S -> Result A * S.

Definition ret {S A : Type} (a : A) : M S A := fun s => (Ok a, s).

Definition bind {S A B : Type} (c : M S A) (k : A -> M S B) : M S B :=
  fun s =>
    match c s with
    | (Ok a, s') => k a s'
    | (Raise e, s') => (Raise e, s')
    end.

Declare Scope monad_scope.
Delimit Scope monad_scope with monad.
Notation "x <- c ;; k" := (bind c (fun x => k))
  (at level 61, c at next level, right associativity) : monad_scope.
Notation "c ;; k" := (bind c (fun _ => k))
  (at level 61, right associativity) : monad_scope.

Local Open Scope monad_scope.

(** Runs a computation on a component of a larger state. *)
Definition zoom {S T A : Type} (get : T -> S) (set : S -> T -> T) (c : M S A) : M T A :=
  fun t => let (r, s') := c (get t) in (r, set s' t).

(** ** [DataAugmentation] *)
Module DataAugmentation.

Record t : Type := mk {
  _apply_color_jitter : bool;
  transforms : list Augmentation;
  jitter : Augmentation
}.

(** [__init__(self, apply_color_jitter)] *)
Definition init (apply_color_jitter : bool) : t :=
  {| _apply_color_jitter := apply_color_jitter;
     transforms := [ RandomHorizontalFlip (75 # 100);
                     RandomChannelShuffle (75 # 100);
                     RandomThinPlateSpline (75 # 100) ];
     jitter := ColorJitter (5 # 10) (5 # 10) (5 # 10) (5 # 10) |}.

(** [DataAugmentation()]: [apply_color_jitter] defaults to [False]. *)
Definition default : t := init false.

Section Forward.
Context {L : Libraries}.

(** [nn.Sequential.forward]: each module is called on the output of the
    one before it. *)
Fixpoint Sequential_forward (modules : list Augmentation) (input : ImgTensor)
  : M RNG ImgTensor :=
  match modules with
  | [] => ret input
  | module :: rest =>
      input' <- augmentation_forward module input ;;
      Sequential_forward rest input'
  end.

Definition forward (self : t) (x : ImgTensor) : M RNG ImgTensor :=
  x_out <- Sequential_forward (transforms self) x ;;
  if _apply_color_jitter self
  then augmentation_forward (jitter self) x_out
  else ret x_out.

End Forward.

End DataAugmentation.

(** ** [torchvision.datasets.CIFAR10] and [torch.utils.data.DataLoader] *)
Module Data.

Record CIFAR10 : Type := mkCIFAR10 {
  root : string;
  train : bool;
  download : bool;
  transform : PILImage -> option ImgTensor
}.

Record DataLoader : Type := mkDataLoader {
  dataset : CIFAR10;
  batch_size : nat;
  shuffle : bool;
  drop_last : bool
}.

(** [DataLoader(dataset, batch_size=...)]: [shuffle] and [drop_last] keep
    their defaults, [False]. *)
Definition DataLoader_init (dataset : CIFAR10) (batch_size : nat) : DataLoader :=
  {| dataset := dataset; batch_size := batch_size; shuffle := false; drop_last := false |}.

(** [BatchSampler.__iter__]: indices are appended to the current batch,
    which is yielded when it is full; what is left at the end is yielded
    unless [drop_last]. *)
Fixpoint BatchSampler (batch_size : nat) (drop_last : bool)
         (sampler : list nat) (batch : list nat) : list (list nat) :=
  match sampler with
  | [] =>
      if (0 <? length batch)%nat && negb drop_last then [batch] else []
  | idx :: rest =>
      let batch' := batch ++ [idx] in
      if (length batch' =? batch_size)%nat
      then batch' :: BatchSampler batch_size drop_last rest []
      else BatchSampler batch_size drop_last rest batch'
  end.

Fixpoint collect {A : Type} (l : list (Result A)) : Result (list A) :=
  match l with
  | [] => Ok []
  | Ok a :: l' =>
      match collect l' with
      | Ok r => Ok (a :: r)
      | Raise e => Raise e
      end
  | Raise e :: _ => Raise e
  end.

(** [torch.stack] of the tensors of a batch: they must be as many as one at
    least and of one shape; the result has one more leading dimension. *)
Definition stack (tensors : list ImgTensor) : Result ImgTensor :=
  match tensors with
  | [] => Raise RuntimeError
  | t0 :: _ =>
      if forallb (fun t => if list_eq_dec Nat.eq_dec (shape t) (shape t0) then true else false)
                 tensors
      then Ok (mkTensor (length tensors :: shape t0) (flat_map data tensors))
      else Raise RuntimeError
  end.

(** [default_collate]: the images are stacked, the labels gathered. *)
Definition default_collate (samples : list (ImgTensor * Z)) : Result (ImgTensor * Labels) :=
  match stack (map fst samples) with
  | Ok imgs => Ok (imgs, map snd samples)
  | Raise e => Raise e
  end.

Section Loading.
Context {L : Libraries}.

Definition CIFAR10_len (self : CIFAR10) : nat :=
  length (cifar10_split (train self)).

(** [CIFAR10.__getitem__]: the transform is applied to the image. *)
Definition CIFAR10_getitem (self : CIFAR10) (index : nat) : Result (ImgTensor * Z) :=
  match nth_error (cifar10_split (train self)) index with
  | None => Raise IndexError
  | Some (img, target) =>
      match transform self img with
      | Some img' => Ok (img', target)
      | None => Raise ValueError
      end
  end.

(** [RandomSampler] when shuffling, [SequentialSampler] otherwise. *)
Definition sampler (self : DataLoader) : M RNG (list nat) :=
  if shuffle self
  then (fun g => let (perm, g') := randperm (CIFAR10_len (dataset self)) g in (Ok perm, g'))
  else ret (seq 0 (CIFAR10_len (dataset self))).

(** The batches of indices of one pass over the loader. *)
Definition index_batches (self : DataLoader) : M RNG (list (list nat)) :=
  indices <- sampler self ;;
  ret (BatchSampler (batch_size self) (drop_last self) indices []).

(** One pass over the loader: the samples of each batch, before they are
    collated ([epoch] below collates them). *)
Definition iterate (self : DataLoader) : M RNG (list (list (ImgTensor * Z))) :=
  batches <- index_batches self ;;
  fun g =>
    (collect (map (fun b => collect (map (CIFAR10_getitem (dataset self)) b)) batches), g).

(** The fetcher: the samples of a batch of indices, collated. *)
Definition fetch (self : DataLoader) (batch : list nat) : Result (ImgTensor * Labels) :=
  match collect (map (CIFAR10_getitem (dataset self)) batch) with
  | Ok samples => default_collate samples
  | Raise e => Raise e
  end.

(** One pass over the loader as the driver sees it: every batch of indices
    is fetched and collated, and the first batch that cannot be ends the
    pass with its exception. *)
Definition epoch (self : DataLoader) : M RNG (list (ImgTensor * Labels)) :=
  batches <- index_batches self ;;
  fun g => (collect (map (fetch self) batches), g).

End Loading.

End Data.

(** ** [CoolSystem] *)
Module CoolSystem.

(** What one call of [self.log(name, value, prog_bar=...)] records. *)
Record LogEntry : Type := mkLog {
  name : string;
  value : Scalar;
  prog_bar : bool
}.

Section Steps.
Context {L : Libraries}.

(** The module and what its steps can reach: its augmentation pipeline,
    the network's parameters and buffers, the accuracy accumulator, the
    metrics logged so far, and the random generator. *)
Record State : Type := mkState {
  rng : RNG;
  transform : DataAugmentation.t;
  parameters : Params;
  buffers : Buffers;
  accuracy : Metric;
  logged : list LogEntry
}.

Definition set_rng (g : RNG) (s : State) : State :=
  mkState g (transform s) (parameters s) (buffers s) (accuracy s) (logged s).

Definition set_buffers (b : Buffers) (s : State) : State :=
  mkState (rng s) (transform s) (parameters s) b (accuracy s) (logged s).

Definition set_accuracy (m : Metric) (s : State) : State :=
  mkState (rng s) (transform s) (parameters s) (buffers s) m (logged s).

Definition set_logged (l : list LogEntry) (s : State) : State :=
  mkState (rng s) (transform s) (parameters s) (buffers s) (accuracy s) l.

(** [__init__]: the pipeline is [DataAugmentation()], nothing is logged. *)
Definition init (g : RNG) (pretrained : Params) (b : Buffers) (m : Metric) : State :=
  mkState g DataAugmentation.default pretrained b m [].

(** [self.model(x)] *)
Definition model (x : ImgTensor) : M State Logits :=
  fun s =>
    let (r, b) := resnet18_forward (parameters s) (buffers s) x in
    (r, set_buffers b s).

(** [self.transform(x)] *)
Definition call_transform (x : ImgTensor) : M State ImgTensor :=
  fun s => zoom rng set_rng (DataAugmentation.forward (transform s) x) s.

(** [self.accuracy(y_hat, y)] *)
Definition call_accuracy (y_hat : Logits) (y : Labels) : M State Scalar :=
  fun s =>
    let (r, m) := Accuracy_forward (accuracy s) y_hat y in
    (r, set_accuracy m s).

(** [self.log(name, value, prog_bar=prog_bar)] *)
Definition log (name : string) (value : Scalar) (prog_bar : bool) : M State unit :=
  fun s => (Ok tt, set_logged (logged s ++ [mkLog name value prog_bar]) s).

Definition forward (x : ImgTensor) : M State Logits :=
  scores <- model x ;;
  ret (F.softmax scores).

Definition compute_loss (y_hat : Logits) (y : Labels) : M State Scalar :=
  fun s => (F.cross_entropy y_hat y, s).

Definition training_step (batch : ImgTensor * Labels) (batch_idx : nat) : M State Scalar :=
  let (x, y) := batch in
  x_aug <- call_transform x ;;
  y_hat <- forward x_aug ;;
  loss <- compute_loss y_hat y ;;
  log "train_loss" loss false ;;
  acc <- call_accuracy y_hat y ;;
  log "train_acc" acc false ;;
  ret loss.

Definition validation_step (batch : ImgTensor * Labels) (batch_idx : nat) : M State unit :=
  let (x, y) := batch in
  y_hat <- forward x ;;
  loss <- compute_loss y_hat y ;;
  log "valid_loss" loss false ;;
  acc <- call_accuracy y_hat y ;;
  log "valid_acc" acc true.

Definition preprocess : PILImage -> option ImgTensor := Preprocess.forward.

Definition train_dataloader : Data.DataLoader :=
  let dataset := Data.mkCIFAR10 getcwd true true preprocess in
  let loader := Data.DataLoader_init dataset 32 in
  loader.

Definition val_dataloader : Data.DataLoader :=
  let dataset := Data.mkCIFAR10 getcwd true true preprocess in
  let loader := Data.DataLoader_init dataset 32 in
  loader.

(** How a call of [show_batch] ends: with its two figures, the batch and
    the augmented batch ([make_grid] and [tensor_to_image] only lay them
    out), with the [StopIteration] of [next] on a loader that has no batch,
    or with the exception of a call. *)
Inductive Shown : Type :=
  | Figures (imgs imgs_aug : ImgTensor)
  | StopIteration
  | Raised (e : Exception).

(** [next(iter(self.train_dataloader()))] fetches the first batch alone. *)
Definition show_batch (win_size : nat * nat) (s : State) : Shown * State :=
  match Data.index_batches train_dataloader (rng s) with
  | (Raise e, g) => (Raised e, set_rng g s)
  | (Ok [], g) => (StopIteration, set_rng g s)
  | (Ok (batch :: _), g) =>
      match Data.fetch train_dataloader batch with
      | Raise e => (Raised e, set_rng g s)
      | Ok (imgs, labels) =>
          match call_transform imgs (set_rng g s) with
          | (Raise e, s') => (Raised e, s')
          | (Ok imgs_aug, s') => (Figures imgs imgs_aug, s')
          end
      end
  end.

End Steps.

(** [torch.optim.AdamW(params, lr=...)] *)
Record AdamW : Type := mkAdamW {
  lr : Q
}.

(** [CosineAnnealingLR(optimizer, T_max, eta_min)] *)
Record CosineAnnealingLR : Type := mkCosineAnnealingLR {
  optimizer : AdamW;
  T_max : nat;
  eta_min : Q
}.

(** [max_epochs] is [self.trainer.max_epochs]. *)
Definition configure_optimizers (max_epochs : nat) : list AdamW * list CosineAnnealingLR :=
  let optimizer := mkAdamW (1 # 10000) in
  let scheduler := mkCosineAnnealingLR optimizer max_epochs 0 in
  ([optimizer], [scheduler]).

(** The learning rate the schedule sets after [epoch] steps, in the closed
    form of its documentation:
    eta_min + (base - eta_min) * (1 + cos (pi * epoch / T_max)) / 2. *)
Definition scheduled_lr (scheduler : CosineAnnealingLR) (epoch : nat) : R :=
  (Q2R (eta_min scheduler) +
   (Q2R (lr (optimizer scheduler)) - Q2R (eta_min scheduler)) *
   (1 + cos (PI * INR epoch / INR (T_max scheduler))) / 2)%R.

End CoolSystem.

(** ** An executable instance of the library interface

    Small stand-ins for the libraries, on which the model runs: the generator
    is a tape of coin tosses, an operator acts on the whole batch when its
    toss comes up, the classifier scores every sample alike. *)
Module Reference.

Definition toss (g : list bool) : bool * list bool :=
  match g with
  | [] => (false, [])
  | c :: g' => (c, g')
  end.

Definition reindex (f : nat -> nat) (x : ImgTensor) : ImgTensor :=
  mkTensor (shape x)
    (map (fun i => nth (f i) (data x) Float32.zero) (seq 0 (length (data x)))).

(** Column [w] of a row of width [W] comes from column [W - 1 - w]. *)
Definition hflip_index (W i : nat) : nat :=
  (i / W * W + (W - 1 - i mod W))%nat.

(** Channel [c] of [C] planes of [HW] elements comes from channel [c + 1]. *)
Definition channel_roll_index (C HW i : nat) : nat :=
  ((i / (C * HW) * C + (i / HW mod C + 1) mod C) * HW + i mod HW)%nat.

Definition apply (op : Augmentation) (x : ImgTensor) : ImgTensor :=
  match op, shape x with
  | RandomHorizontalFlip _, [_; _; _; W] => reindex (hflip_index W) x
  | RandomChannelShuffle _, [_; C; H; W] => reindex (channel_roll_index C (H * W)) x
  | _, _ => x
  end.

Definition augment (op : Augmentation) (x : ImgTensor) (g : list bool)
  : Result ImgTensor * list bool :=
  match shape x with
  | [_; _; _; _] => let (c, g') := toss g in (Ok (if c then apply op x else x), g')
  | _ => (Raise ValueError, g)
  end.

Definition classifier (p : R) (b : nat) (x : ImgTensor) : Result Logits * nat :=
  match shape x with
  | [N; _; _; _] => (Ok (repeat [p; 0%R; 0%R] N), S b)
  | _ => (Raise RuntimeError, b)
  end.

Definition accuracy (m : nat * nat) (y_hat : Logits) (y : Labels)
  : Result Scalar * (nat * nat) :=
  let correct := count_occ Z.eq_dec y 0 in
  let total := length y in
  (Ok (match total with
       | O => NaN
       | _ => Real (INR correct / INR total)
       end),
   (fst m + correct, snd m + total)%nat).

Definition solid (r g b : Z) : PILImage :=
  mkImage 2 2 3 (concat (repeat [r; g; b] 4)).

(** Forty training images and two test images. *)
Definition split (train : bool) : list (PILImage * Z) :=
  if train
  then map (fun i => (solid (Z.of_nat i) 0 255, Z.of_nat (i mod 10))) (seq 0 40)
  else [(solid 7 7 7, 3); (solid 9 9 9, 4)].

Definition libs : Libraries :=
  {| RNG := list bool;
     Params := R;
     Buffers := nat;
     Metric := nat * nat;
     augmentation_forward := augment;
     resnet18_forward := classifier;
     Accuracy_forward := accuracy;
     randperm := fun n g => (rev (seq 0 n), tl g);
     getcwd := ".";
     cifar10_split := split |}.

(** A batch of two 3 x 1 x 2 images. *)
Definition batch2 : ImgTensor :=
  mkTensor [2; 3; 1; 2]%nat (map (fun n => Preprocess.scale (Z.of_nat n)) (seq 0 12)).

(** The same libraries with an accuracy metric that refuses its input. *)
Definition libs_failing_metric : Libraries :=
  {| RNG := list bool;
     Params := R;
     Buffers := nat;
     Metric := nat * nat;
     augmentation_forward := augment;
     resnet18_forward := classifier;
     Accuracy_forward := fun m _ _ => (Raise ValueError, m);
     randperm := fun n g => (rev (seq 0 n), tl g);
     getcwd := ".";
     cifar10_split := split |}.

(** The same libraries over a training split of two images of different
    sizes. *)
Definition libs_mixed_sizes : Libraries :=
  {| RNG := list bool;
     Params := R;
     Buffers := nat;
     Metric := nat * nat;
     augmentation_forward := augment;
     resnet18_forward := classifier;
     Accuracy_forward := accuracy;
     randperm := fun n g => (rev (seq 0 n), tl g);
     getcwd := ".";
     cifar10_split := fun _ => [(solid 1 2 3, 0); (mkImage 1 1 3 [4; 5; 6], 1)] |}.

(** A module on a three-toss tape, with weight 1, before any step. *)
Definition state0 : @CoolSystem.State libs :=
  @CoolSystem.init libs [true; false; true] 1%R 0%nat (0, 0)%nat.

Definition labels2 : Labels := [0; 2].

(** The batch after the flip alone: the second toss spares the shuffle and
    the reference warp moves nothing. *)
Definition batch2_flipped : ImgTensor := reindex (hflip_index 2) batch2.

Definition loss2 : R :=
  ((0 - F.log_softmax_at (F.softmax_row [1; 0; 0]) 2
      - F.log_softmax_at (F.softmax_row [1; 0; 0]) 0) / INR 2)%R.

Definition acc2 : Scalar := Real (INR 1 / INR 2).

End Reference.

(** ** Contracts and variations of the library interface *)

(** The documented shape contract of the Kornia operators: on a well-formed
    batch of shape (N, 3, H, W) an operator returns a well-formed batch of the
    same shape, whatever the generator draws. *)
Class ShapePreserving (L : Libraries) : Prop :=
  augmentation_shape :
    forall (op : Augmentation) (x : ImgTensor) (g : RNG) (N H W : nat),
      shape x = [N; 3%nat; H; W] ->
      well_shaped x ->
      exists x' : ImgTensor,
        fst (augmentation_forward op x g) = Ok x' /\
        shape x' = [N; 3%nat; H; W] /\
        well_shaped x'.

(** The same libraries with another implementation of [ColorJitter]. *)
Definition with_jitter (L : Libraries)
           (jit : ImgTensor -> RNG -> Result ImgTensor * RNG) : Libraries :=
  {| RNG := RNG;
     Params := Params;
     Buffers := Buffers;
     Metric := Metric;
     augmentation_forward := fun op =>
       match op with
       | ColorJitter _ _ _ _ => jit
       | _ => augmentation_forward op
       end;
     resnet18_forward := resnet18_forward;
     Accuracy_forward := Accuracy_forward;
     randperm := randperm;
     getcwd := getcwd;
     cifar10_split := cifar10_split |}.

(** ** Vocabulary of the further properties *)

(** The tensor [Preprocess] returns, as a function of the image. *)
Definition preprocessed (x : PILImage) : ImgTensor :=
  tensor_map Preprocess.scale
    match im_bands x with
    | 1%nat => mkTensor [1%nat; im_height x; im_width x] (im_bytes x)
    | c => mkTensor [c; im_height x; im_width x]
             (hwc_to_chw (im_height x) (im_width x) c (im_bytes x))
    end.

(** Sample [i] of the training split as the dataset returns it. *)
Definition train_sample {L : Libraries} (i : nat) : ImgTensor * Z :=
  let p := nth i (cifar10_split true) (mkImage 0 0 0 [], 0) in
  (preprocessed (fst p), snd p).

(** * Properties *)

(** ** [Preprocess] *)

Lemma length_hwc_to_chw (H W C : nat) (d : list Z) :
  length (hwc_to_chw H W C d) = (C * (H * W))%nat.
Proof.
  unfold hwc_to_chw.
  rewrite flat_map_constant_length with (c := (H * W)%nat).
  - now rewrite length_seq.
  - intros c _. rewrite flat_map_constant_length with (c := W).
    + now rewrite length_seq.
    + intros h _. now rewrite length_map, length_seq.
Qed.

Lemma nth_uint8 (d : list Z) (i : nat) :
  Forall is_uint8 d -> is_uint8 (nth i d 0).
Proof.
  intros Hd. destruct (Nat.lt_ge_cases i (length d)) as [Hi | Hi].
  - rewrite Forall_forall in Hd. apply Hd, nth_In, Hi.
  - rewrite nth_overflow by exact Hi. unfold is_uint8. lia.
Qed.

Lemma hwc_to_chw_uint8 (H W C : nat) (d : list Z) :
  Forall is_uint8 d -> Forall is_uint8 (hwc_to_chw H W C d).
Proof.
  intros Hd. unfold hwc_to_chw.
  apply Forall_flat_map, Forall_forall. intros c _.
  apply Forall_flat_map, Forall_forall. intros h _.
  apply Forall_map, Forall_forall. intros w _.
  now apply nth_uint8.
Qed.

Lemma nth_flat_map_seq {A : Type} (f : nat -> list A) (k n start i j : nat) (d : A) :
  (forall x, length (f x) = k) ->
  (i < n)%nat -> (j < k)%nat ->
  nth (i * k + j) (flat_map f (seq start n)) d = nth j (f (start + i)%nat) d.
Proof.
  intros Hk. revert start i. induction n as [| n IH]; intros start i Hi Hj; [lia |].
  cbn [seq flat_map]. destruct i as [| i].
  - rewrite app_nth1 by (rewrite Hk; cbn; lia).
    cbn [Nat.mul Nat.add]. now rewrite Nat.add_0_r.
  - rewrite app_nth2 by (rewrite Hk; cbn; lia).
    rewrite Hk. replace (S i * k + j - k)%nat with (i * k + j)%nat by (cbn; lia).
    rewrite IH by lia. f_equal. f_equal. lia.
Qed.

(** Element (c, h, w) of the permuted array is element (h, w, c) of the
    original. *)
Lemma nth_hwc_to_chw (H W C c h w : nat) (d : list Z) :
  (c < C)%nat -> (h < H)%nat -> (w < W)%nat ->
  nth (c * (H * W) + (h * W + w)) (hwc_to_chw H W C d) 0 =
  nth ((h * W + w) * C + c) d 0.
Proof.
  intros Hc Hh Hw. unfold hwc_to_chw.
  rewrite nth_flat_map_seq; [| | exact Hc |].
  - rewrite nth_flat_map_seq; [| | exact Hh | exact Hw].
    + cbn [Nat.add].
      set (f := fun w0 : nat => nth ((h * W + w0) * C + c) d 0).
      rewrite (nth_indep _ 0 (f 0%nat))
        by (rewrite length_map, length_seq; exact Hw).
      rewrite map_nth, seq_nth by exact Hw. reflexivity.
    + intros x. now rewrite length_map, length_seq.
  - intros x. rewrite flat_map_constant_length with (c := W).
    + now rewrite length_seq.
    + intros y _. now rewrite length_map, length_seq.
  - assert (h * W + w < H * W)%nat by nia. lia.
Qed.

(** The 256 values of a byte all land in [0, 1]: binary32 division by 255
    rounds to nearest and 0 / 255 and 255 / 255 are exact. *)
Lemma scale_unit_interval (v : Z) :
  is_uint8 v -> Float32.in_unit_interval (Preprocess.scale v) = true.
Proof.
  intros [Hlo Hhi].
  assert (Hall : forallb (fun n => Float32.in_unit_interval (Preprocess.scale (Z.of_nat n)))
                         (seq 0 256) = true) by (vm_compute; reflexivity).
  rewrite forallb_forall in Hall.
  specialize (Hall (Z.to_nat v)).
  rewrite Z2Nat.id in Hall by exact Hlo.
  apply Hall, in_seq. lia.
Qed.

(** Past the range of a byte the quotient leaves the interval. *)
Example scale_256 : Float32.in_unit_interval (Preprocess.scale 256) = false.
Proof. vm_compute. reflexivity. Qed.

(** C6. On every raw image that is a raster of three 8-bit bands,
    [Preprocess.forward] returns a tensor; the tensor is channel-first
    (3 x H x W, with as many elements; its element (c, h, w) is byte
    (h, w, c) of the image divided by 255), every element lies in [0, 1],
    and any two calls on the image return equal tensors: the result is a
    function of the image alone. *)
Theorem preprocess_channel_first_unit_deterministic (x : PILImage) :
  rgb_image x ->
  (exists t : Tensor Float32.float32,
      Preprocess.forward x = Some t /\
      shape t = [3%nat; im_height x; im_width x] /\
      well_shaped t /\
      (forall c h w : nat,
          (c < 3)%nat -> (h < im_height x)%nat -> (w < im_width x)%nat ->
          nth (c * (im_height x * im_width x) + (h * im_width x + w)) (data t)
              Float32.zero =
          Preprocess.scale (nth ((h * im_width x + w) * 3 + c) (im_bytes x) 0)) /\
      Forall (fun v => Float32.in_unit_interval v = true) (data t)) /\
  (forall t1 t2, Preprocess.forward x = Some t1 -> Preprocess.forward x = Some t2 -> t1 = t2).
Proof.
  intros (Hb & Hlen & Hbytes). split.
  - unfold Preprocess.forward, np_array. rewrite Hb. cbn [image_to_tensor shape data].
    eexists. split; [reflexivity |].
    split; [reflexivity |]. split; [| split].
    + unfold well_shaped, tensor_map. cbn [shape data numel fold_right].
      rewrite length_map, length_hwc_to_chw. lia.
    + intros c h w Hc Hh Hw. unfold tensor_map. cbn [data].
      change Float32.zero with (Preprocess.scale 0).
      rewrite map_nth, nth_hwc_to_chw by assumption. reflexivity.
    + unfold tensor_map. cbn [data].
      apply Forall_map. eapply Forall_impl; [| apply hwc_to_chw_uint8, Hbytes].
      intros v Hv. now apply scale_unit_interval.
  - intros t1 t2 H1 H2. rewrite H1 in H2. now injection H2.
Qed.

Lemma preprocess_channel_first_unit_deterministic_witness :
  rgb_image (Reference.solid 255 0 128) /\
  exists t : Tensor Float32.float32,
    Preprocess.forward (Reference.solid 255 0 128) = Some t /\
    shape t = [3%nat; 2%nat; 2%nat] /\
    well_shaped t /\
    (forall c h w : nat,
        (c < 3)%nat -> (h < 2)%nat -> (w < 2)%nat ->
        nth (c * (2 * 2) + (h * 2 + w)) (data t) Float32.zero =
        Preprocess.scale
          (nth ((h * 2 + w) * 3 + c) (im_bytes (Reference.solid 255 0 128)) 0)) /\
    Forall (fun v => Float32.in_unit_interval v = true) (data t).
Proof.
  assert (Hx : rgb_image (Reference.solid 255 0 128)).
  { split; [reflexivity |]. split; [reflexivity |].
    cbn. repeat constructor; unfold is_uint8; lia. }
  split; [exact Hx |].
  exact (proj1 (preprocess_channel_first_unit_deterministic (Reference.solid 255 0 128) Hx)).
Defined.

(** ** [DataAugmentation] *)

Section AugmentationFacts.
Context {L : Libraries}.

Lemma bind_ret_r {S A : Type} (c : M S A) (s : S) :
  bind c (fun a => ret a) s = c s.
Proof.
  unfold bind, ret. destruct (c s) as [[a | e] s']; reflexivity.
Qed.

(** C3. For every batch and every generator state, a pipeline built by
    [DataAugmentation(flag)] calls the horizontal flip with p = 0.75 on the
    input, then the channel shuffle with p = 0.75 on the flip's output, then
    the thin-plate-spline warp with p = 0.75 on the shuffle's output, each
    from the generator state the previous one left, and only then, when
    the flag is set, the colour jitter; an operator that raises stops the
    pipeline. *)
Theorem augmentation_fixed_order (flag : bool) (x : ImgTensor) (g : RNG) :
  DataAugmentation.forward (DataAugmentation.init flag) x g =
  match augmentation_forward (RandomHorizontalFlip (75 # 100)) x g with
  | (Raise e, g1) => (Raise e, g1)
  | (Ok x1, g1) =>
      match augmentation_forward (RandomChannelShuffle (75 # 100)) x1 g1 with
      | (Raise e, g2) => (Raise e, g2)
      | (Ok x2, g2) =>
          match augmentation_forward (RandomThinPlateSpline (75 # 100)) x2 g2 with
          | (Raise e, g3) => (Raise e, g3)
          | (Ok x3, g3) =>
              if flag
              then augmentation_forward
                     (ColorJitter (5 # 10) (5 # 10) (5 # 10) (5 # 10)) x3 g3
              else (Ok x3, g3)
          end
      end
  end.
Proof.
  unfold DataAugmentation.forward, DataAugmentation.init.
  cbn [DataAugmentation.transforms DataAugmentation._apply_color_jitter
       DataAugmentation.jitter DataAugmentation.Sequential_forward].
  unfold bind.
  destruct (augmentation_forward (RandomHorizontalFlip (75 # 100)) x g)
    as [[x1 | e1] g1]; [| reflexivity].
  destruct (augmentation_forward (RandomChannelShuffle (75 # 100)) x1 g1)
    as [[x2 | e2] g2]; [| reflexivity].
  destruct (augmentation_forward (RandomThinPlateSpline (75 # 100)) x2 g2)
    as [[x3 | e3] g3]; [| reflexivity].
  destruct flag; reflexivity.
Qed.

Lemma Sequential_forward_shape `{!ShapePreserving L}
      (modules : list Augmentation) (x : ImgTensor) (g : RNG) (N H W : nat) :
  shape x = [N; 3%nat; H; W] ->
  well_shaped x ->
  exists x' : ImgTensor,
    fst (DataAugmentation.Sequential_forward modules x g) = Ok x' /\
    shape x' = [N; 3%nat; H; W] /\
    well_shaped x'.
Proof.
  revert x g. induction modules as [| op rest IH]; intros x g Hs Hw.
  - exists x. cbn. auto.
  - cbn [DataAugmentation.Sequential_forward]. unfold bind.
    destruct (augmentation_shape op x g N H W Hs Hw) as (x1 & Hx1 & Hs1 & Hw1).
    destruct (augmentation_forward op x g) as [r g1]. cbn in Hx1. subst r.
    apply IH; assumption.
Qed.

End AugmentationFacts.

(** C4. The pipeline [DataAugmentation()] has its flag false, and on every
    batch and generator state its [forward] is the flip / shuffle / warp
    sequence alone: same output, same generator state afterwards.  The colour
    jitter is never called: replacing its implementation by any other changes
    nothing. *)
Theorem jitter_disabled_is_noop {L : Libraries} (x : ImgTensor) (g : RNG) :
  DataAugmentation.default = DataAugmentation.init false /\
  DataAugmentation.forward DataAugmentation.default x g =
    DataAugmentation.Sequential_forward
      [ RandomHorizontalFlip (75 # 100);
        RandomChannelShuffle (75 # 100);
        RandomThinPlateSpline (75 # 100) ] x g /\
  forall jit : ImgTensor -> RNG -> Result ImgTensor * RNG,
    @DataAugmentation.forward (with_jitter L jit) DataAugmentation.default x g =
    @DataAugmentation.forward L DataAugmentation.default x g.
Proof.
  split; [reflexivity |]. split.
  - unfold DataAugmentation.forward, DataAugmentation.default, DataAugmentation.init.
    cbn [DataAugmentation.transforms DataAugmentation._apply_color_jitter].
    apply bind_ret_r.
  - intros jit.
    unfold DataAugmentation.forward, DataAugmentation.default, DataAugmentation.init.
    cbn [DataAugmentation.transforms DataAugmentation._apply_color_jitter
         DataAugmentation.Sequential_forward].
    cbn [with_jitter augmentation_forward RNG].
    reflexivity.
Qed.

(** C7. Given the shape contract of the Kornia operators, on every
    well-formed batch of shape (N, 3, H, W), whatever its values, the flag and
    the generator state, [DataAugmentation.forward] returns a well-formed
    tensor of shape (N, 3, H, W): batch size, channel count, height and width
    are preserved.  Nothing is said of the range of the output values. *)
Theorem augmentation_preserves_shape {L : Libraries} `{!ShapePreserving L}
        (flag : bool) (x : ImgTensor) (g : RNG) (N H W : nat) :
  shape x = [N; 3%nat; H; W] ->
  well_shaped x ->
  exists x_out : ImgTensor,
    fst (DataAugmentation.forward (DataAugmentation.init flag) x g) = Ok x_out /\
    shape x_out = [N; 3%nat; H; W] /\
    well_shaped x_out.
Proof.
  intros Hs Hw.
  unfold DataAugmentation.forward. unfold bind at 1.
  destruct (Sequential_forward_shape
              (DataAugmentation.transforms (DataAugmentation.init flag)) x g N H W Hs Hw)
    as (x3 & Hx3 & Hs3 & Hw3).
  destruct (DataAugmentation.Sequential_forward _ x g) as [r g3]. cbn in Hx3. subst r.
  destruct flag; cbn [DataAugmentation._apply_color_jitter DataAugmentation.init].
  - apply augmentation_shape; assumption.
  - exists x3. cbn. auto.
Qed.

Lemma reindex_well_shaped (f : nat -> nat) (x : ImgTensor) :
  well_shaped x -> well_shaped (Reference.reindex f x).
Proof.
  unfold well_shaped, Reference.reindex. cbn [shape data].
  intros Hw. now rewrite length_map, length_seq.
Qed.

Lemma reference_shape_preserving : ShapePreserving Reference.libs.
Proof.
  intros op x g N H W Hs Hw.
  cbn [augmentation_forward Reference.libs]. unfold Reference.augment. rewrite Hs.
  destruct (Reference.toss g) as [c g'].
  exists (if c then Reference.apply op x else x).
  split; [reflexivity |].
  destruct c; [| auto].
  unfold Reference.apply. rewrite Hs.
  destruct op; [| | auto | auto].
  - split; [exact Hs | now apply reindex_well_shaped].
  - split; [exact Hs | now apply reindex_well_shaped].
Qed.

Lemma augmentation_preserves_shape_witness :
  ShapePreserving Reference.libs /\
  shape Reference.batch2 = [2; 3; 1; 2]%nat /\
  well_shaped Reference.batch2 /\
  exists x_out : ImgTensor,
    fst (@DataAugmentation.forward Reference.libs (DataAugmentation.init true)
           Reference.batch2 [true; true; false; true]) = Ok x_out /\
    shape x_out = [2; 3; 1; 2]%nat /\
    well_shaped x_out.
Proof.
  split; [exact reference_shape_preserving |].
  split; [reflexivity |]. split; [reflexivity |].
  apply (@augmentation_preserves_shape Reference.libs reference_shape_preserving
           true Reference.batch2 [true; true; false; true] 2%nat 1%nat 2%nat);
    reflexivity.
Defined.

(** The reference flip and shuffle do move data. *)
Example reference_pipeline_run :
  option_map (map (fun i => nth i (data Reference.batch2) Float32.zero))
    (Some [3; 2; 5; 4; 1; 0; 9; 8; 11; 10; 7; 6]%nat) =
  match @DataAugmentation.forward Reference.libs DataAugmentation.default
          Reference.batch2 [true; true; false] with
  | (Ok t, _) => Some (data t)
  | (Raise _, _) => None
  end.
Proof. vm_compute. reflexivity. Qed.

(** ** The steps of [CoolSystem] *)

(** Unfolds the calls of a step down to the library operators. *)
Ltac unfold_step :=
  unfold CoolSystem.training_step, CoolSystem.validation_step,
    CoolSystem.forward, CoolSystem.compute_loss, CoolSystem.call_transform,
    CoolSystem.call_accuracy, CoolSystem.model, CoolSystem.log, zoom, bind, ret;
  cbn [CoolSystem.rng CoolSystem.transform CoolSystem.parameters CoolSystem.buffers
       CoolSystem.accuracy CoolSystem.logged CoolSystem.set_rng CoolSystem.set_buffers
       CoolSystem.set_accuracy CoolSystem.set_logged].

Ltac simpl_state :=
  cbn [CoolSystem.rng CoolSystem.transform CoolSystem.parameters CoolSystem.buffers
       CoolSystem.accuracy CoolSystem.logged CoolSystem.set_rng CoolSystem.set_buffers
       CoolSystem.set_accuracy CoolSystem.set_logged fst snd].

(** Rewrites with the outcome of a library call and resumes the step. *)
Ltac run_call H := rewrite H; simpl_state.

Section StepFacts.
Context {L : Libraries}.

Import CoolSystem.

(** C1. On a batch (x, y), when no library call raises, [training_step]
    augments x with the module's [DataAugmentation], runs the network on
    the augmented batch and applies softmax, takes the cross-entropy of
    these predictions against y, logs it as 'train_loss', logs the accuracy
    of the predictions as 'train_acc', and returns the loss.  The
    parameters are left as they were. *)
Theorem training_step_spec (x : ImgTensor) (y : Labels) (batch_idx : nat) (s : State)
        (x_aug : ImgTensor) (g1 : RNG) (scores : Logits) (b1 : Buffers)
        (loss acc : Scalar) (m1 : Metric) :
  DataAugmentation.forward (transform s) x (rng s) = (Ok x_aug, g1) ->
  resnet18_forward (parameters s) (buffers s) x_aug = (Ok scores, b1) ->
  F.cross_entropy (F.softmax scores) y = Ok loss ->
  Accuracy_forward (accuracy s) (F.softmax scores) y = (Ok acc, m1) ->
  training_step (x, y) batch_idx s =
    (Ok loss,
     mkState g1 (transform s) (parameters s) b1 m1
       (logged s ++ [mkLog "train_loss" loss false; mkLog "train_acc" acc false])).
Proof.
  intros Haug Hnet Hloss Hacc.
  unfold_step.
  run_call Haug. run_call Hnet. run_call Hloss. run_call Hacc.
  rewrite <- app_assoc. reflexivity.
Qed.

(** C2. On a batch (x, y), when no library call raises, [validation_step]
    runs the network and softmax on x itself: no augmentation operator is
    called and the random generator is left untouched.  It takes the
    cross-entropy against y, logs it as 'valid_loss', and logs the accuracy
    as 'valid_acc' with [prog_bar] set. *)
Theorem validation_step_spec (x : ImgTensor) (y : Labels) (batch_idx : nat) (s : State)
        (scores : Logits) (b1 : Buffers) (loss acc : Scalar) (m1 : Metric) :
  resnet18_forward (parameters s) (buffers s) x = (Ok scores, b1) ->
  F.cross_entropy (F.softmax scores) y = Ok loss ->
  Accuracy_forward (accuracy s) (F.softmax scores) y = (Ok acc, m1) ->
  validation_step (x, y) batch_idx s =
    (Ok tt,
     mkState (rng s) (transform s) (parameters s) b1 m1
       (logged s ++ [mkLog "valid_loss" loss false; mkLog "valid_acc" acc true])).
Proof.
  intros Hnet Hloss Hacc.
  unfold_step.
  run_call Hnet. run_call Hloss. run_call Hacc.
  rewrite <- app_assoc. reflexivity.
Qed.

(** C5. Whatever the batch and whatever the outcome (a return or an
    exception from any call), the parameters after [validation_step] are
    the parameters before it. *)
Theorem validation_step_keeps_parameters
        (batch : ImgTensor * Labels) (batch_idx : nat) (s : State) :
  parameters (snd (validation_step batch batch_idx s)) = parameters s.
Proof.
  destruct batch as [x y]. unfold_step.
  destruct (resnet18_forward (parameters s) (buffers s) x) as [[scores | e] b1];
    simpl_state; [| reflexivity].
  destruct (F.cross_entropy (F.softmax scores) y) as [loss | e];
    simpl_state; [| reflexivity].
  destruct (Accuracy_forward (accuracy s) (F.softmax scores) y) as [[acc | e] m1];
    reflexivity.
Qed.

End StepFacts.

Lemma training_step_spec_witness :
  @CoolSystem.training_step Reference.libs
    (Reference.batch2, Reference.labels2) 0 Reference.state0 =
  (Ok (Real Reference.loss2),
   @CoolSystem.mkState Reference.libs [] DataAugmentation.default 1%R 1%nat (1, 2)%nat
     [CoolSystem.mkLog "train_loss" (Real Reference.loss2) false;
      CoolSystem.mkLog "train_acc" Reference.acc2 false]).
Proof.
  apply (@training_step_spec Reference.libs
           Reference.batch2 Reference.labels2 0%nat Reference.state0
           Reference.batch2_flipped [] (repeat [1%R; 0%R; 0%R] 2) 1%nat
           (Real Reference.loss2) Reference.acc2 (1, 2)%nat);
    reflexivity.
Defined.

Lemma validation_step_spec_witness :
  @CoolSystem.validation_step Reference.libs
    (Reference.batch2, Reference.labels2) 0 Reference.state0 =
  (Ok tt,
   @CoolSystem.mkState Reference.libs [true; false; true] DataAugmentation.default
     1%R 1%nat (1, 2)%nat
     [CoolSystem.mkLog "valid_loss" (Real Reference.loss2) false;
      CoolSystem.mkLog "valid_acc" Reference.acc2 true]).
Proof.
  apply (@validation_step_spec Reference.libs
           Reference.batch2 Reference.labels2 0%nat Reference.state0
           (repeat [1%R; 0%R; 0%R] 2) 1%nat
           (Real Reference.loss2) Reference.acc2 (1, 2)%nat);
    reflexivity.
Defined.

(** ** Data loaders *)

(** Without [drop_last] the batches, put end to end, are the sampler's
    indices in the sampler's order. *)
Lemma BatchSampler_concat (batch_size : nat) (sampler batch : list nat) :
  concat (Data.BatchSampler batch_size false sampler batch) = batch ++ sampler.
Proof.
  revert batch. induction sampler as [| idx rest IH]; intros batch;
    cbn [Data.BatchSampler].
  - rewrite app_nil_r. destruct batch; cbn; now rewrite ?app_nil_r.
  - destruct (length (batch ++ [idx]) =? batch_size)%nat.
    + cbn [concat]. rewrite IH. cbn [app]. rewrite <- app_assoc. reflexivity.
    + rewrite IH, <- app_assoc. reflexivity.
Qed.

(** No batch is empty and none holds more than [batch_size] indices. *)
Lemma BatchSampler_sizes (batch_size : nat) (drop_last : bool) (sampler batch : list nat) :
  (length batch < batch_size)%nat ->
  Forall (fun b => (0 < length b <= batch_size)%nat)
         (Data.BatchSampler batch_size drop_last sampler batch).
Proof.
  revert batch. induction sampler as [| idx rest IH]; intros batch Hlt;
    cbn [Data.BatchSampler].
  - destruct (Nat.ltb_spec 0 (length batch)); cbn [andb]; [| constructor].
    destruct drop_last; cbn [negb]; repeat constructor; lia.
  - assert (Hlen : length (batch ++ [idx]) = S (length batch))
      by (rewrite length_app; cbn; lia).
    destruct (Nat.eqb_spec (length (batch ++ [idx])) batch_size) as [Heq | Hneq].
    + constructor; [lia |]. apply IH. cbn. lia.
    + apply IH. lia.
Qed.

Section LoaderFacts.
Context {L : Libraries}.


(** C10. [val_dataloader] builds the very loader [train_dataloader]
    builds: the CIFAR10 training split ([train] set), the [Preprocess]
    transform, batch size 32.  A validation sample is therefore a sample of
    the training split, and one pass over either loader yields the same
    batches. *)
Theorem val_dataloader_is_train_dataloader :
  CoolSystem.val_dataloader = CoolSystem.train_dataloader /\
  Data.train (Data.dataset CoolSystem.val_dataloader) = true /\
  Data.transform (Data.dataset CoolSystem.val_dataloader) = Preprocess.forward /\
  Data.batch_size CoolSystem.val_dataloader = 32%nat /\
  (forall index : nat,
      Data.CIFAR10_getitem (Data.dataset CoolSystem.val_dataloader) index =
      match nth_error (cifar10_split true) index with
      | None => Raise IndexError
      | Some (img, target) =>
          match Preprocess.forward img with
          | Some img' => Ok (img', target)
          | None => Raise ValueError
          end
      end) /\
  (forall g : RNG,
      Data.iterate CoolSystem.val_dataloader g =
      Data.iterate CoolSystem.train_dataloader g).
Proof.
  repeat split; reflexivity.
Qed.

End LoaderFacts.


(** ** Runs on concrete inputs *)

(** A 1 x 2 image: the bytes of each band end up side by side, scaled. *)
Example preprocess_run :
  Preprocess.forward (mkImage 1 2 3 [0; 51; 255; 255; 0; 102]) =
  Some (mkTensor [3; 1; 2]%nat
          (map Preprocess.scale [0; 255; 51; 0; 255; 102])).
Proof. reflexivity. Qed.

(** A five-dimensional array is refused. *)
Example image_to_tensor_refuses_5d :
  image_to_tensor (mkTensor [1; 1; 1; 1; 1]%nat [0]) true = None.
Proof. reflexivity. Qed.

(** A label outside the classes is an error, not a loss. *)
Example cross_entropy_label_out_of_range :
  F.cross_entropy [[0%R; 0%R]] [2] = Raise IndexError.
Proof. reflexivity. Qed.

Example cross_entropy_size_mismatch :
  F.cross_entropy [[0%R; 0%R]] [0; 1] = Raise ValueError.
Proof. reflexivity. Qed.

(** The mean over no counted target is NaN. *)
Example cross_entropy_all_ignored :
  F.cross_entropy [[0%R; 0%R]] [-100] = Ok NaN.
Proof. reflexivity. Qed.

(** With [drop_last] the short batch at the end is dropped. *)
Example BatchSampler_run :
  Data.BatchSampler 3 false (seq 0 7) [] = [[0; 1; 2]; [3; 4; 5]; [6]]%nat /\
  Data.BatchSampler 3 true (seq 0 7) [] = [[0; 1; 2]; [3; 4; 5]]%nat.
Proof. split; reflexivity. Qed.

(** * Further properties of the script *)

(** ** What the steps leave alone, and what a failing call leaves behind *)

Section StepFrames.
Context {L : Libraries}.

Import CoolSystem.

(** X5. On every path, return or exception, [training_step] leaves the
    parameters and the augmentation pipeline as they were (the update is the
    optimizer's, outside the step) and only appends to the log: at most the
    entries 'train_loss' then 'train_acc', none of them for the progress bar. *)
Theorem training_step_frame (batch : ImgTensor * Labels) (batch_idx : nat) (s : State) :
  parameters (snd (training_step batch batch_idx s)) = parameters s /\
  transform (snd (training_step batch batch_idx s)) = transform s /\
  exists entries : list LogEntry,
    logged (snd (training_step batch batch_idx s)) = logged s ++ entries /\
    (map name entries = [] \/
     map name entries = ["train_loss"%string] \/
     map name entries = ["train_loss"%string; "train_acc"%string]) /\
    Forall (fun e => prog_bar e = false) entries.
Proof.
  destruct batch as [x y]. unfold_step.
  destruct (DataAugmentation.forward (transform s) x (rng s)) as [[x_aug | e] g1];
    simpl_state.
  2: { repeat split. exists []. rewrite app_nil_r. repeat split; auto. }
  destruct (resnet18_forward (parameters s) (buffers s) x_aug) as [[scores | e] b1];
    simpl_state.
  2: { repeat split. exists []. rewrite app_nil_r. repeat split; auto. }
  destruct (F.cross_entropy (F.softmax scores) y) as [loss | e]; simpl_state.
  2: { repeat split. exists []. rewrite app_nil_r. repeat split; auto. }
  destruct (Accuracy_forward (accuracy s) (F.softmax scores) y) as [[acc | e] m1];
    simpl_state.
  - repeat split. eexists. split; [rewrite <- app_assoc; reflexivity |].
    split; [right; right; reflexivity | repeat constructor].
  - repeat split. eexists. split; [reflexivity |].
    split; [right; left; reflexivity | repeat constructor].
Qed.

(** X6. On every path [validation_step] leaves the random generator and the
    augmentation pipeline as they were, and only appends to the log: at most
    'valid_loss' then 'valid_acc'. *)
Theorem validation_step_frame (batch : ImgTensor * Labels) (batch_idx : nat) (s : State) :
  rng (snd (validation_step batch batch_idx s)) = rng s /\
  transform (snd (validation_step batch batch_idx s)) = transform s /\
  exists entries : list LogEntry,
    logged (snd (validation_step batch batch_idx s)) = logged s ++ entries /\
    (map name entries = [] \/
     map name entries = ["valid_loss"%string] \/
     map name entries = ["valid_loss"%string; "valid_acc"%string]).
Proof.
  destruct batch as [x y]. unfold_step.
  destruct (resnet18_forward (parameters s) (buffers s) x) as [[scores | e] b1];
    simpl_state.
  2: { repeat split. exists []. rewrite app_nil_r. auto. }
  destruct (F.cross_entropy (F.softmax scores) y) as [loss | e]; simpl_state.
  2: { repeat split. exists []. rewrite app_nil_r. auto. }
  destruct (Accuracy_forward (accuracy s) (F.softmax scores) y) as [[acc | e] m1];
    simpl_state.
  - repeat split. eexists. split; [rewrite <- app_assoc; reflexivity |].
    right; right; reflexivity.
  - repeat split. eexists. split; [reflexivity |].
    right; left; reflexivity.
Qed.

(** X7. When the loss raises (labels out of range, sizes that differ),
    [training_step] raises the same exception and has logged nothing; the
    accuracy accumulator is untouched, while the random generator and the
    buffers have moved on. *)
Theorem training_step_loss_raises (x : ImgTensor) (y : Labels) (batch_idx : nat) (s : State)
        (x_aug : ImgTensor) (g1 : RNG) (scores : Logits) (b1 : Buffers) (e : Exception) :
  DataAugmentation.forward (transform s) x (rng s) = (Ok x_aug, g1) ->
  resnet18_forward (parameters s) (buffers s) x_aug = (Ok scores, b1) ->
  F.cross_entropy (F.softmax scores) y = Raise e ->
  training_step (x, y) batch_idx s =
    (Raise e, mkState g1 (transform s) (parameters s) b1 (accuracy s) (logged s)).
Proof.
  intros Haug Hnet Hloss. unfold_step.
  run_call Haug. run_call Hnet. run_call Hloss. reflexivity.
Qed.

(** X8. When the accuracy metric raises, [training_step] raises the same
    exception after 'train_loss' has been logged: the log holds a loss with
    no accuracy beside it. *)
Theorem training_step_accuracy_raises (x : ImgTensor) (y : Labels) (batch_idx : nat)
        (s : State) (x_aug : ImgTensor) (g1 : RNG) (scores : Logits) (b1 : Buffers)
        (loss : Scalar) (m1 : Metric) (e : Exception) :
  DataAugmentation.forward (transform s) x (rng s) = (Ok x_aug, g1) ->
  resnet18_forward (parameters s) (buffers s) x_aug = (Ok scores, b1) ->
  F.cross_entropy (F.softmax scores) y = Ok loss ->
  Accuracy_forward (accuracy s) (F.softmax scores) y = (Raise e, m1) ->
  training_step (x, y) batch_idx s =
    (Raise e,
     mkState g1 (transform s) (parameters s) b1 m1
       (logged s ++ [mkLog "train_loss" loss false])).
Proof.
  intros Haug Hnet Hloss Hacc. unfold_step.
  run_call Haug. run_call Hnet. run_call Hloss. run_call Hacc. reflexivity.
Qed.

End StepFrames.

(** ** The batches of a loader, one by one *)

(** What is left fits in the batch under way: it is yielded short. *)
Lemma BatchSampler_acc (batch_size : nat) (drop_last : bool) (sampler batch : list nat) :
  (length batch + length sampler < batch_size)%nat ->
  Data.BatchSampler batch_size drop_last sampler batch =
  if (0 <? length (batch ++ sampler))%nat && negb drop_last then [batch ++ sampler] else [].
Proof.
  revert batch. induction sampler as [| idx rest IH]; intros batch Hlt;
    cbn [Data.BatchSampler].
  - now rewrite app_nil_r.
  - assert (Hlen : length (batch ++ [idx]) = S (length batch))
      by (rewrite length_app; cbn; lia).
    cbn [length] in Hlt.
    destruct (Nat.eqb_spec (length (batch ++ [idx])) batch_size) as [Heq | Hneq]; [lia |].
    rewrite IH by lia. now rewrite <- app_assoc.
Qed.

(** The batch under way is filled up, yielded, and a new one is begun. *)
Lemma BatchSampler_fill (batch_size : nat) (drop_last : bool) (sampler batch : list nat) :
  (length batch < batch_size)%nat ->
  (batch_size <= length batch + length sampler)%nat ->
  Data.BatchSampler batch_size drop_last sampler batch =
  (batch ++ firstn (batch_size - length batch) sampler) ::
  Data.BatchSampler batch_size drop_last (skipn (batch_size - length batch) sampler) [].
Proof.
  revert batch. induction sampler as [| idx rest IH]; intros batch Hlt Hge;
    cbn [length] in Hge; [lia |].
  cbn [Data.BatchSampler].
  assert (Hlen : length (batch ++ [idx]) = S (length batch))
    by (rewrite length_app; cbn; lia).
  destruct (Nat.eqb_spec (length (batch ++ [idx])) batch_size) as [Heq | Hneq].
  - replace (batch_size - length batch)%nat with 1%nat by lia. reflexivity.
  - rewrite IH by lia. rewrite Hlen.
    replace (batch_size - length batch)%nat with (S (batch_size - S (length batch))) by lia.
    cbn [firstn skipn]. now rewrite <- app_assoc.
Qed.

(** Batch number [k] holds the [batch_size] indices from position
    [k * batch_size] on, or those that are left. *)
Lemma BatchSampler_nth (batch_size : nat) (sampler : list nat) (k : nat) :
  (0 < batch_size)%nat ->
  (k * batch_size < length sampler)%nat ->
  nth_error (Data.BatchSampler batch_size false sampler []) k =
  Some (firstn batch_size (skipn (k * batch_size) sampler)).
Proof.
  intros Hbs. revert sampler. induction k as [| k IH]; intros sampler Hk.
  - cbn [Nat.mul skipn] in *.
    destruct (Nat.lt_ge_cases (length sampler) batch_size) as [Hshort | Hfull].
    + rewrite BatchSampler_acc by (cbn; lia). cbn [app].
      destruct sampler as [| i rest]; [cbn in Hk; lia |].
      cbn [length Nat.ltb Nat.leb andb negb nth_error].
      now rewrite firstn_all2 by (cbn [length] in *; lia).
    + rewrite BatchSampler_fill by (cbn; lia).
      cbn [length app nth_error]. now rewrite Nat.sub_0_r.
  - assert (Hfull : (batch_size <= length sampler)%nat) by (cbn in Hk; lia).
    rewrite BatchSampler_fill by (cbn; lia).
    cbn [length nth_error]. rewrite Nat.sub_0_r.
    rewrite IH by (rewrite length_skipn; cbn in Hk; lia).
    rewrite skipn_skipn.
    replace (k * batch_size + batch_size)%nat with (S k * batch_size)%nat by lia.
    reflexivity.
Qed.

(** There are as many batches as the indices need: the quotient rounded up. *)
Lemma BatchSampler_count (batch_size : nat) (sampler : list nat) :
  (0 < batch_size)%nat ->
  length (Data.BatchSampler batch_size false sampler []) =
  ((length sampler + batch_size - 1) / batch_size)%nat.
Proof.
  intros Hbs.
  assert (H : forall m sampler0, (length sampler0 <= m)%nat ->
            length (Data.BatchSampler batch_size false sampler0 []) =
            ((length sampler0 + batch_size - 1) / batch_size)%nat).
  { induction m as [| m IH]; intros l Hm.
    - destruct l; [| cbn in Hm; lia]. cbn.
      symmetry. apply Nat.div_small. lia.
    - destruct (Nat.lt_ge_cases (length l) batch_size) as [Hshort | Hfull].
      + rewrite BatchSampler_acc by (cbn; lia). cbn [app negb].
        destruct l as [| i rest].
        * cbn. symmetry. apply Nat.div_small. lia.
        * cbn [length Nat.ltb Nat.leb andb].
          apply Nat.div_unique with (r := length rest); cbn [length] in *; lia.
      + rewrite BatchSampler_fill by (cbn; lia).
        cbn [length]. rewrite Nat.sub_0_r.
        rewrite IH by (rewrite length_skipn; lia).
        rewrite length_skipn.
        replace (length l + batch_size - 1)%nat
          with ((length l - batch_size + batch_size - 1) + 1 * batch_size)%nat by lia.
        rewrite Nat.div_add by lia. lia. }
  apply (H (length sampler)). lia.
Qed.

Lemma firstn_seq (k start len : nat) :
  firstn k (seq start len) = seq start (Nat.min k len).
Proof.
  revert start len. induction k as [| k IH]; intros start [| len]; cbn; try reflexivity.
  now rewrite IH.
Qed.

Section BatchFacts.
Context {L : Libraries}.

(** X9. One pass over the training loader has as many batches as the
    training split needs at 32 samples a batch (its size over 32, rounded
    up), and batch number k holds the samples 32 k, 32 k + 1, ... up to 32 of
    them or the end of the split: only the last batch can be short. *)
Theorem train_dataloader_batches (g : RNG) (k : nat) :
  (k * 32 < length (cifar10_split true))%nat ->
  exists batches : list (list nat),
    Data.index_batches CoolSystem.train_dataloader g = (Ok batches, g) /\
    length batches = ((length (cifar10_split true) + 31) / 32)%nat /\
    nth_error batches k =
      Some (seq (32 * k) (Nat.min 32 (length (cifar10_split true) - 32 * k))).
Proof.
  intros Hk.
  exists (Data.BatchSampler 32 false (seq 0 (length (cifar10_split true))) []).
  split; [reflexivity |]. split.
  - rewrite BatchSampler_count by lia. rewrite length_seq. f_equal. lia.
  - rewrite BatchSampler_nth by (rewrite ?length_seq; lia).
    rewrite skipn_seq, firstn_seq. f_equal. f_equal; lia.
Qed.

End BatchFacts.

Lemma train_dataloader_batches_witness :
  exists batches : list (list nat),
    @Data.index_batches Reference.libs (@CoolSystem.train_dataloader Reference.libs) [] =
      (Ok batches, []) /\
    length batches = ((40 + 31) / 32)%nat /\
    nth_error batches 1 = Some (seq (32 * 1) (Nat.min 32 (40 - 32 * 1))).
Proof.
  apply (@train_dataloader_batches Reference.libs [] 1%nat).
  cbn. lia.
Defined.

(** ** [Preprocess] on any image, and through the loader *)

Lemma preprocess_total (x : PILImage) : Preprocess.forward x = Some (preprocessed x).
Proof.
  unfold Preprocess.forward, preprocessed, np_array.
  destruct (im_bands x) as [| [| c]]; reflexivity.
Qed.

Lemma preprocessed_facts (x : PILImage) :
  shape (preprocessed x) = [im_bands x; im_height x; im_width x] /\
  (length (im_bytes x) = (im_height x * im_width x * im_bands x)%nat ->
   well_shaped (preprocessed x)) /\
  (Forall is_uint8 (im_bytes x) ->
   Forall (fun v => Float32.in_unit_interval v = true) (data (preprocessed x))) /\
  (im_bands x = 1%nat -> data (preprocessed x) = map Preprocess.scale (im_bytes x)).
Proof.
  unfold preprocessed, well_shaped, tensor_map.
  destruct (im_bands x) as [| [| c]] eqn:Hb; cbn [shape data numel fold_right];
    (split; [reflexivity |]; split; [| split]).
  all: try (intros Hlen; rewrite length_map, ?length_hwc_to_chw; lia).
  all: try (intros Hone; first [discriminate Hone | reflexivity]).
  all: intros Hbytes; apply Forall_map;
    (eapply Forall_impl;
     [| first [apply hwc_to_chw_uint8, Hbytes | exact Hbytes]]);
    intros v Hv; now apply scale_unit_interval.
Qed.

(** X10. [Preprocess] never fails on an image, whatever its number of bands:
    the result has shape (bands, H, W), so a single-band image gets a
    leading dimension of 1 and keeps its bytes in place; it holds as many
    elements as its shape says when the image holds H*W*bands bytes, and its
    values lie in [0, 1] when the bytes are 8-bit. *)
Theorem preprocess_any_bands (x : PILImage) :
  exists t : ImgTensor,
    Preprocess.forward x = Some t /\
    shape t = [im_bands x; im_height x; im_width x] /\
    (length (im_bytes x) = (im_height x * im_width x * im_bands x)%nat -> well_shaped t) /\
    (Forall is_uint8 (im_bytes x) ->
     Forall (fun v => Float32.in_unit_interval v = true) (data t)) /\
    (im_bands x = 1%nat -> data t = map Preprocess.scale (im_bytes x)).
Proof.
  exists (preprocessed x). split.
  - apply preprocess_total.
  - apply preprocessed_facts.
Qed.

Lemma collect_map_ok {A B : Type} (f : A -> Result B) (g : A -> B) (l : list A) :
  (forall a, In a l -> f a = Ok (g a)) ->
  Data.collect (map f l) = Ok (map g l).
Proof.
  induction l as [| a l IH]; intros Hf; cbn [map Data.collect]; [reflexivity |].
  rewrite (Hf a) by now left.
  rewrite IH by (intros b Hb; apply Hf; now right). reflexivity.
Qed.

Lemma map_nth_seq {A : Type} (l : list A) (d : A) :
  map (fun i => nth i l d) (seq 0 (length l)) = l.
Proof.
  induction l as [| a l IH]; [reflexivity |].
  cbn [length seq map nth]. rewrite <- seq_shift, map_map. cbn [nth].
  now rewrite IH.
Qed.

Section PassFacts.
Context {L : Libraries}.

Lemma train_getitem_ok (i : nat) :
  (i < length (cifar10_split true))%nat ->
  Data.CIFAR10_getitem (Data.dataset CoolSystem.train_dataloader) i = Ok (train_sample i).
Proof.
  intros Hi. unfold Data.CIFAR10_getitem, train_sample.
  cbn [Data.train Data.dataset Data.transform CoolSystem.train_dataloader
       Data.DataLoader_init].
  rewrite (nth_error_nth' _ (mkImage 0 0 0 [], 0) Hi).
  destruct (nth i (cifar10_split true) (mkImage 0 0 0 [], 0)) as [img target].
  unfold CoolSystem.preprocess. now rewrite preprocess_total.
Qed.

End PassFacts.

Lemma training_step_loss_raises_witness :
  @CoolSystem.training_step Reference.libs (Reference.batch2, [0; 5]) 0 Reference.state0 =
  (Raise IndexError,
   @CoolSystem.mkState Reference.libs [] DataAugmentation.default 1%R 1%nat (0, 0)%nat []).
Proof.
  apply (@training_step_loss_raises Reference.libs
           Reference.batch2 [0; 5] 0%nat Reference.state0
           Reference.batch2_flipped [] (repeat [1%R; 0%R; 0%R] 2) 1%nat IndexError);
    reflexivity.
Defined.

Lemma training_step_accuracy_raises_witness :
  @CoolSystem.training_step Reference.libs_failing_metric
    (Reference.batch2, Reference.labels2) 0
    (@CoolSystem.init Reference.libs_failing_metric [true; false; true] 1%R 0%nat (0, 0)%nat) =
  (Raise ValueError,
   @CoolSystem.mkState Reference.libs_failing_metric [] DataAugmentation.default
     1%R 1%nat (0, 0)%nat
     [CoolSystem.mkLog "train_loss" (Real Reference.loss2) false]).
Proof.
  apply (@training_step_accuracy_raises Reference.libs_failing_metric
           Reference.batch2 Reference.labels2 0%nat
           (@CoolSystem.init Reference.libs_failing_metric
              [true; false; true] 1%R 0%nat (0, 0)%nat)
           Reference.batch2_flipped [] (repeat [1%R; 0%R; 0%R] 2) 1%nat
           (Real Reference.loss2) (0, 0)%nat ValueError);
    reflexivity.
Defined.

(** ** The learning-rate schedule *)

Lemma Q2R_lr : Q2R (1 # 10000) = (1 / 10000)%R.
Proof. unfold Q2R. cbn. lra. Qed.

Lemma Q2R_zero : Q2R 0 = 0%R.
Proof. unfold Q2R. cbn. lra. Qed.

Lemma epoch_angle (T e : nat) :
  (0 < T)%nat -> (e <= T)%nat ->
  (0 <= PI * INR e / INR T <= PI)%R.
Proof.
  intros HT He.
  assert (HTr : (0 < INR T)%R) by now apply lt_0_INR.
  pose proof (pos_INR e) as He0. apply le_INR in He.
  pose proof PI_RGT_0 as Hpi.
  assert (Hr : (0 <= INR e / INR T <= 1)%R).
  { split.
    - apply Rle_mult_inv_pos; assumption.
    - apply Rmult_le_reg_r with (r := INR T); [exact HTr |].
      unfold Rdiv. rewrite Rmult_assoc, Rinv_l by lra. lra. }
  replace (PI * INR e / INR T)%R with (PI * (INR e / INR T))%R by (unfold Rdiv; ring).
  split; nra.
Qed.

(** X13. [configure_optimizers] returns one AdamW optimizer with learning
    rate 1e-4 and one cosine schedule over it.  For a positive number of
    epochs the scheduled rate starts at 1e-4, never leaves [0, 1e-4], does
    not increase from one epoch to the next up to [max_epochs], and is 0 at
    [max_epochs]. *)
Theorem cosine_schedule_decays_to_zero (max_epochs : nat) :
  (0 < max_epochs)%nat ->
  exists (opt : CoolSystem.AdamW) (sch : CoolSystem.CosineAnnealingLR),
    CoolSystem.configure_optimizers max_epochs = ([opt], [sch]) /\
    CoolSystem.optimizer sch = opt /\
    CoolSystem.lr opt = 1 # 10000 /\
    CoolSystem.scheduled_lr sch 0 = (1 / 10000)%R /\
    CoolSystem.scheduled_lr sch max_epochs = 0%R /\
    (forall epoch : nat, (0 <= CoolSystem.scheduled_lr sch epoch <= 1 / 10000)%R) /\
    (forall e1 e2 : nat,
        (e1 <= e2 <= max_epochs)%nat ->
        (CoolSystem.scheduled_lr sch e2 <= CoolSystem.scheduled_lr sch e1)%R).
Proof.
  intros HT. do 2 eexists. split; [reflexivity |].
  split; [reflexivity |]. split; [reflexivity |].
  unfold CoolSystem.scheduled_lr.
  cbn [CoolSystem.eta_min CoolSystem.lr CoolSystem.optimizer CoolSystem.T_max].
  rewrite Q2R_lr, Q2R_zero.
  assert (HTr : (0 < INR max_epochs)%R) by now apply lt_0_INR.
  split; [| split; [| split]].
  - replace (PI * INR 0 / INR max_epochs)%R with 0%R by (cbn [INR]; unfold Rdiv; ring).
    rewrite cos_0. lra.
  - replace (PI * INR max_epochs / INR max_epochs)%R with PI by (field; lra).
    rewrite cos_PI. lra.
  - intros epoch. pose proof (COS_bound (PI * INR epoch / INR max_epochs)). lra.
  - intros e1 e2 [H12 H2T].
    pose proof (epoch_angle max_epochs e1 HT ltac:(lia)) as [H1a H1b].
    pose proof (epoch_angle max_epochs e2 HT H2T) as [H2a H2b].
    assert (Hle : (PI * INR e1 / INR max_epochs <= PI * INR e2 / INR max_epochs)%R).
    { apply le_INR in H12. pose proof PI_RGT_0.
      unfold Rdiv. apply Rmult_le_compat_r; [left; now apply Rinv_0_lt_compat | nra]. }
    pose proof (cos_decr_1 _ _ H1a H1b H2a H2b Hle). lra.
Qed.

Lemma cosine_schedule_decays_to_zero_witness :
  exists (opt : CoolSystem.AdamW) (sch : CoolSystem.CosineAnnealingLR),
    CoolSystem.configure_optimizers 10 = ([opt], [sch]) /\
    CoolSystem.optimizer sch = opt /\
    CoolSystem.lr opt = 1 # 10000 /\
    CoolSystem.scheduled_lr sch 0 = (1 / 10000)%R /\
    CoolSystem.scheduled_lr sch 10 = 0%R /\
    (forall epoch : nat, (0 <= CoolSystem.scheduled_lr sch epoch <= 1 / 10000)%R) /\
    (forall e1 e2 : nat,
        (e1 <= e2 <= 10)%nat ->
        (CoolSystem.scheduled_lr sch e2 <= CoolSystem.scheduled_lr sch e1)%R).
Proof.
  apply (cosine_schedule_decays_to_zero 10). lia.
Defined.

(** ** [show_batch] *)



Lemma first_batch (n : nat) :
  (0 < n)%nat ->
  exists others : list (list nat),
    Data.BatchSampler 32 false (seq 0 n) [] = seq 0 (Nat.min 32 n) :: others.
Proof.
  intros Hn.
  pose proof (BatchSampler_nth 32 (seq 0 n) 0 ltac:(lia)
                ltac:(rewrite length_seq; lia)) as Hnth.
  cbn [Nat.mul skipn] in Hnth. rewrite firstn_seq in Hnth.
  destruct (Data.BatchSampler 32 false (seq 0 n) []) as [| b others];
    [discriminate |].
  cbn [nth_error] in Hnth. injection Hnth as ->. now exists others.
Qed.


Section ShowBatchFacts.
Context {L : Libraries}.

Import CoolSystem.

Lemma train_index_batches (g : RNG) :
  Data.index_batches train_dataloader g =
  (Ok (Data.BatchSampler 32 false (seq 0 (length (cifar10_split true))) []), g).
Proof. reflexivity. Qed.

(** X14. [show_batch] only looks: on every path it leaves the parameters,
    the buffers, the accuracy accumulator, the log and the augmentation
    pipeline as they were (the random generator alone may move).  It ends
    with [StopIteration] exactly when the training split is empty. *)
Theorem show_batch_frame (win_size : nat * nat) (s : State) :
  parameters (snd (show_batch win_size s)) = parameters s /\
  buffers (snd (show_batch win_size s)) = buffers s /\
  accuracy (snd (show_batch win_size s)) = accuracy s /\
  logged (snd (show_batch win_size s)) = logged s /\
  transform (snd (show_batch win_size s)) = transform s /\
  (fst (show_batch win_size s) = StopIteration <-> cifar10_split true = []).
Proof.
  unfold show_batch. rewrite train_index_batches.
  destruct (cifar10_split true) as [| p split] eqn:Hsplit.
  - cbn. repeat split; reflexivity.
  - destruct (first_batch (length (p :: split)) ltac:(cbn; lia)) as (others & ->).
    destruct (Data.fetch train_dataloader _) as [[imgs labels] | e].
    + unfold call_transform, zoom. simpl_state.
      destruct (DataAugmentation.forward (transform s) imgs (rng s)) as [[imgs_aug | e] g1];
        simpl_state; repeat split; try reflexivity; discriminate.
    + simpl_state. repeat split; try reflexivity; discriminate.
Qed.


End ShowBatchFacts.

Lemma solid_rgb (r g b : Z) :
  is_uint8 r -> is_uint8 g -> is_uint8 b ->
  rgb_image (Reference.solid r g b) /\
  im_height (Reference.solid r g b) = 2%nat /\
  im_width (Reference.solid r g b) = 2%nat.
Proof.
  intros Hr Hg Hb.
  split; [| split; reflexivity].
  split; [reflexivity |]. split; [reflexivity |].
  cbn. repeat (apply Forall_cons; [assumption |]). apply Forall_nil.
Qed.

Lemma reference_split_rgb :
  Forall (fun p => rgb_image (fst p) /\ im_height (fst p) = 2%nat /\ im_width (fst p) = 2%nat)
         (@cifar10_split Reference.libs true).
Proof.
  cbn [cifar10_split Reference.libs Reference.split].
  apply Forall_map, Forall_forall. intros i Hi. apply in_seq in Hi. cbn [fst].
  apply solid_rgb; unfold is_uint8; lia.
Qed.


(** ** A whole pass, collated *)

Lemma stack_same_shape (sh : list nat) (tensors : list ImgTensor) :
  tensors <> [] ->
  Forall (fun t => shape t = sh) tensors ->
  Data.stack tensors = Ok (mkTensor (length tensors :: sh) (flat_map data tensors)).
Proof.
  intros Hne Hall. destruct tensors as [| t0 rest]; [contradiction |].
  assert (H0 : shape t0 = sh) by (inversion Hall; assumption).
  unfold Data.stack.
  replace (forallb _ (t0 :: rest)) with true; [now rewrite H0 |].
  symmetry. apply forallb_forall. intros t Ht.
  rewrite Forall_forall in Hall. specialize (Hall t Ht).
  destruct (list_eq_dec Nat.eq_dec (shape t) (shape t0)) as [_ | Hneq];
    [reflexivity | congruence].
Qed.

Lemma concat_map_flat_map {A B : Type} (f : A -> list B) (ls : list (list A)) :
  concat (map (flat_map f) ls) = flat_map f (concat ls).
Proof.
  induction ls as [| l ls IH]; [reflexivity |].
  cbn [map concat]. now rewrite flat_map_app, IH.
Qed.

Section EpochFacts.
Context {L : Libraries}.

(** What the fetcher returns on a batch of indices when the images have one
    shape. *)
Lemma train_fetch_ok (C H W : nat) (batch : list nat) :
  Forall (fun p => im_bands (fst p) = C /\ im_height (fst p) = H /\ im_width (fst p) = W)
         (cifar10_split true) ->
  batch <> [] ->
  Forall (fun i => (i < length (cifar10_split true))%nat) batch ->
  Data.fetch CoolSystem.train_dataloader batch =
  Ok (mkTensor (length batch :: [C; H; W])
        (flat_map (fun i => data (fst (train_sample i))) batch),
      map (fun i => snd (train_sample i)) batch).
Proof.
  intros Hall Hne Hidx. rewrite Forall_forall in Hidx.
  unfold Data.fetch.
  rewrite (collect_map_ok _ train_sample)
    by (intros i Hi; apply train_getitem_ok, Hidx, Hi).
  unfold Data.default_collate.
  rewrite (stack_same_shape [C; H; W]).
  - rewrite !length_map, !map_map, flat_map_concat_map, map_map.
    now rewrite <- flat_map_concat_map.
  - destruct batch; [contradiction | discriminate].
  - apply Forall_map, Forall_map, Forall_forall. intros i Hi.
    unfold train_sample. cbn [fst].
    set (p := nth i (cifar10_split true) (mkImage 0 0 0 [], 0)).
    assert (Hp : In p (cifar10_split true)) by (apply nth_In, Hidx, Hi).
    rewrite Forall_forall in Hall. destruct (Hall p Hp) as (Hb & HH & HW).
    destruct (preprocessed_facts (fst p)) as (Hshape & _).
    now rewrite Hshape, Hb, HH, HW.
Qed.

(** X11. When the images of the training split have one shape (bands, H,
    W), one pass over the training loader, every batch fetched and collated,
    returns ceil(n / 32) batches.  Each is a tensor of shape (k, bands, H, W)
    with k labels, 1 <= k <= 32.  Put end to end, the labels are the labels
    of the split in its own order, and the tensors hold, image after image in
    that order, what [Preprocess] returns on the images of the split. *)
Theorem train_epoch_is_preprocessed_split (g : RNG) (C H W : nat) :
  Forall (fun p => im_bands (fst p) = C /\ im_height (fst p) = H /\ im_width (fst p) = W)
         (cifar10_split true) ->
  exists batches : list (ImgTensor * Labels),
    fst (Data.epoch CoolSystem.train_dataloader g) = Ok batches /\
    length batches = ((length (cifar10_split true) + 31) / 32)%nat /\
    concat (map snd batches) = map snd (cifar10_split true) /\
    flat_map (fun b => data (fst b)) batches =
      flat_map (fun p => data (preprocessed (fst p))) (cifar10_split true) /\
    Forall (fun b => exists k : nat,
                (0 < k <= 32)%nat /\
                shape (fst b) = [k; C; H; W] /\
                length (snd b) = k)
           batches.
Proof.
  intros Hall.
  set (n := length (cifar10_split true)).
  set (index := Data.BatchSampler 32 false (seq 0 n) []).
  assert (Hcat : concat index = seq 0 n) by apply BatchSampler_concat.
  assert (Hsizes : Forall (fun b => (0 < length b <= 32)%nat) index)
    by (apply BatchSampler_sizes; cbn; lia).
  set (collated := fun b : list nat =>
         (mkTensor (length b :: [C; H; W])
            (flat_map (fun i => data (fst (train_sample i))) b),
          map (fun i => snd (train_sample i)) b)).
  exists (map collated index).
  split; [| split; [| split; [| split]]].
  - unfold Data.epoch, bind. rewrite train_index_batches. cbn [fst]. fold n. fold index.
    apply collect_map_ok. intros b Hb.
    apply train_fetch_ok; [exact Hall | |].
    + rewrite Forall_forall in Hsizes. specialize (Hsizes b Hb).
      intros ->. cbn in Hsizes. lia.
    + apply Forall_forall. intros i Hi.
      assert (Hin : In i (concat index)) by (apply in_concat; exists b; split; assumption).
      rewrite Hcat in Hin. apply in_seq in Hin. fold n. lia.
  - rewrite length_map. unfold index. rewrite BatchSampler_count by lia.
    rewrite length_seq. f_equal. lia.
  - rewrite map_map. cbn [snd collated].
    rewrite <- (concat_map (fun i => snd (train_sample i))), Hcat.
    rewrite <- (map_nth_seq (cifar10_split true) (mkImage 0 0 0 [], 0)) at 1.
    fold n. rewrite map_map. reflexivity.
  - rewrite flat_map_concat_map, map_map. cbn [fst data collated].
    rewrite (concat_map_flat_map (fun i => data (fst (train_sample i)))), Hcat.
    rewrite <- (map_nth_seq (cifar10_split true) (mkImage 0 0 0 [], 0)) at 1.
    fold n. rewrite !flat_map_concat_map, map_map. reflexivity.
  - apply Forall_map. eapply Forall_impl; [| exact Hsizes].
    intros b Hb. exists (length b). cbn [fst snd shape collated].
    split; [exact Hb |]. split; [reflexivity | apply length_map].
Qed.

(** X16. When the first two images of the training split differ in shape,
    the pass raises [RuntimeError]: [Preprocess] succeeds on each image, and
    stacking the first batch fails. *)
Theorem train_epoch_mixed_shapes_raises (g : RNG) (p0 p1 : PILImage * Z)
        (rest : list (PILImage * Z)) :
  cifar10_split true = p0 :: p1 :: rest ->
  [im_bands (fst p1); im_height (fst p1); im_width (fst p1)] <>
  [im_bands (fst p0); im_height (fst p0); im_width (fst p0)] ->
  fst (Data.epoch CoolSystem.train_dataloader g) = Raise RuntimeError.
Proof.
  intros Hsplit Hdiff.
  set (n := length (cifar10_split true)).
  assert (Hn : (2 <= n)%nat) by (unfold n; rewrite Hsplit; cbn; lia).
  unfold Data.epoch, bind. rewrite train_index_batches. cbn [fst]. fold n.
  destruct (first_batch n ltac:(lia)) as (others & ->).
  cbn [map Data.collect].
  replace (Data.fetch CoolSystem.train_dataloader (seq 0 (Nat.min 32 n)))
    with (@Raise (ImgTensor * Labels) RuntimeError); [reflexivity |].
  symmetry. unfold Data.fetch.
  rewrite (collect_map_ok _ train_sample)
    by (intros i Hi; apply train_getitem_ok; apply in_seq in Hi; fold n; lia).
  unfold Data.default_collate.
  destruct (Nat.min 32 n) as [| [| k]] eqn:Hk; [lia | lia |].
  cbn [seq map Data.stack forallb].
  assert (H0 : shape (fst (train_sample 0)) =
               [im_bands (fst p0); im_height (fst p0); im_width (fst p0)]).
  { unfold train_sample. rewrite Hsplit. cbn [nth fst].
    now destruct (preprocessed_facts (fst p0)) as (-> & _). }
  assert (H1 : shape (fst (train_sample 1)) =
               [im_bands (fst p1); im_height (fst p1); im_width (fst p1)]).
  { unfold train_sample. rewrite Hsplit. cbn [nth fst].
    now destruct (preprocessed_facts (fst p1)) as (-> & _). }
  destruct (list_eq_dec Nat.eq_dec (shape (fst (train_sample 0)))
                        (shape (fst (train_sample 0)))) as [_ | Hneq];
    [| contradiction].
  destruct (list_eq_dec Nat.eq_dec (shape (fst (train_sample 1)))
                        (shape (fst (train_sample 0)))) as [Heq | _];
    [| reflexivity].
  rewrite H0, H1 in Heq. contradiction.
Qed.

End EpochFacts.

Lemma reference_split_shapes :
  Forall (fun p => im_bands (fst p) = 3%nat /\
                   im_height (fst p) = 2%nat /\ im_width (fst p) = 2%nat)
         (@cifar10_split Reference.libs true).
Proof.
  eapply Forall_impl; [| exact reference_split_rgb].
  intros p ((Hb & _) & HH & HW). auto.
Qed.

Lemma train_epoch_is_preprocessed_split_witness :
  exists batches : list (ImgTensor * Labels),
    fst (@Data.epoch Reference.libs (@CoolSystem.train_dataloader Reference.libs) []) =
      Ok batches /\
    length batches = ((40 + 31) / 32)%nat /\
    concat (map snd batches) = map snd (@cifar10_split Reference.libs true) /\
    flat_map (fun b => data (fst b)) batches =
      flat_map (fun p => data (preprocessed (fst p))) (@cifar10_split Reference.libs true) /\
    Forall (fun b => exists k : nat,
                (0 < k <= 32)%nat /\
                shape (fst b) = [k; 3; 2; 2]%nat /\
                length (snd b) = k)
           batches.
Proof.
  apply (@train_epoch_is_preprocessed_split Reference.libs [] 3%nat 2%nat 2%nat).
  exact reference_split_shapes.
Defined.

Lemma train_epoch_mixed_shapes_raises_witness :
  fst (@Data.epoch Reference.libs_mixed_sizes
         (@CoolSystem.train_dataloader Reference.libs_mixed_sizes) []) =
  Raise RuntimeError.
Proof.
  apply (@train_epoch_mixed_shapes_raises Reference.libs_mixed_sizes []
           (Reference.solid 1 2 3, 0) (mkImage 1 1 3 [4; 5; 6], 1) []).
  - reflexivity.
  - discriminate.
Defined.
